(** * Verification of the wait-status decoder of nix ([src/sys/wait.rs])

    A shallow embedding of the status-word decoders of the three platform
    families (Linux/Android, Darwin, other BSDs), of the generic [decode]
    that combines them, of [waitpid]'s result handling and of the
    [PidGroup] conversions.  Integers are [Z] with their wrap-around written
    out; a Rust panic ([unwrap] on an error, a failed [assert!]) is an
    outcome of its own in a small panic monad. *)

From Stdlib Require Import ZArith Bool List Lia.
Import ListNotations.
Open Scope Z_scope.

(** ** Machine integers *)

(** [x as i8]: keep the low 8 bits, read them as two's complement. *)
Definition as_i8 (x : Z) : Z :=
  let m := x mod 256 in if m <? 128 then m else m - 256.

(** [x as i32]. *)
Definition as_i32 (x : Z) : Z :=
  let m := x mod 4294967296 in if m <? 2147483648 then m else m - 4294967296.

(** [x as u32]. *)
Definition as_u32 (x : Z) : Z := x mod 4294967296.

Definition i32_min : Z := -2147483648.
Definition i32_max : Z := 2147483647.
Definition in_i32 (x : Z) : Prop := i32_min <= x <= i32_max.
Definition in_u32 (x : Z) : Prop := 0 <= x < 4294967296.

(** ** Rust results and panics *)

Inductive result (A E : Type) : Type :=
| Ok (a : A)
| Err (e : E).
Arguments Ok {A E} a.
Arguments Err {A E} e.

(** The error type of the crate ([Error::Sys(errno)] and
    [Error::invalid_argument()]). *)
Inductive Error : Type :=
| Sys (errno : Z)
| InvalidArgument.

(** Why a computation panicked. *)
Inductive Panic : Type :=
| UnwrapOnErr       (* [Result::unwrap] called on an [Err] *)
| AssertionFailed.  (* a failed [assert!] *)

(** A computation that returns a value or panics. *)
Inductive Outcome (A : Type) : Type :=
| Ret (a : A)
| Panicked (p : Panic).
Arguments Ret {A} a.
Arguments Panicked {A} p.

Definition bind {A B} (m : Outcome A) (k : A -> Outcome B) : Outcome B :=
  match m with
  | Ret a => k a
  | Panicked p => Panicked p
  end.

Notation "x <- m ;; k" := (bind m (fun x => k))
  (at level 61, m at next level, right associativity).

Definition unwrap {A E} (r : result A E) : Outcome A :=
  match r with
  | Ok a => Ret a
  | Err _ => Panicked UnwrapOnErr
  end.

(** ** Signals *)

(** A signal is represented by its number. *)
Definition Signal := Z.

(** Modelled from the spec: [Signal::from_c_int], the signal-number resolver
    of [sys/signal.rs] (not part of the sources here).  It maps a number of
    the crate's signal table to its signal and fails with an ordinary error
    on any other number.  The table is the classic one, numbers 1 to 31
    ([0 < signum < NSIG], [NSIG = 32]). *)
Definition NSIG : Z := 32.
Definition from_c_int (signum : Z) : result Signal Error :=
  if (0 <? signum) && (signum <? NSIG) then Ok signum else Err InvalidArgument.

(** [SIGCONT] on Darwin. *)
Definition SIGCONT : Signal := 19.

(** ** The decoded result *)

Definition Pid := Z.

Inductive WaitStatus : Type :=
| Exited (pid : Pid) (code : Z)
| Signaled (pid : Pid) (sig : Signal) (core : bool)
| Stopped (pid : Pid) (sig : Signal)
| PtraceEvent (pid : Pid) (sig : Signal) (aux : Z)
| Continued (pid : Pid)
| StillAlive.

(** ** The platform decoders ([mod status]) *)

Module Linux.
Definition exited (status : Z) : bool := Z.land status 0x7F =? 0.
Definition exit_status (status : Z) : Z :=
  as_i8 (Z.shiftr (Z.land status 0xFF00) 8).
Definition signaled (status : Z) : bool :=
  Z.shiftr (as_i8 (Z.land status 0x7f + 1)) 1 >? 0.
Definition term_signal (status : Z) : Outcome Signal :=
  unwrap (from_c_int (Z.land status 0x7f)).
Definition dumped_core (status : Z) : bool := negb (Z.land status 0x80 =? 0).
Definition stopped (status : Z) : bool := Z.land status 0xff =? 0x7f.
Definition stop_signal (status : Z) : Outcome Signal :=
  unwrap (from_c_int (Z.shiftr (Z.land status 0xFF00) 8)).
Definition stop_additional (status : Z) : Z := Z.shiftr status 16.
Definition continued (status : Z) : bool := status =? 0xFFFF.

(** [decode_stopped] of the Linux/Android branch of [decode]. *)
Definition decode_stopped (pid : Pid) (status : Z) : Outcome WaitStatus :=
  let status_additional := stop_additional status in
  if status_additional =? 0 then
    s <- stop_signal status ;; Ret (Stopped pid s)
  else
    s <- stop_signal status ;; Ret (PtraceEvent pid s (stop_additional status)).
End Linux.

Module Darwin.
Definition WCOREFLAG : Z := 0x80.
Definition WSTOPPED : Z := 0x7f.
Definition wstatus (status : Z) : Z := Z.land status 0x7F.
Definition exit_status (status : Z) : Z :=
  as_i8 (Z.land (Z.shiftr status 8) 0xFF).
Definition stop_signal (status : Z) : Outcome Signal :=
  unwrap (from_c_int (Z.shiftr status 8)).
(** [&&] short-circuits: the stop signal is only read on the stop
    discriminant. *)
Definition continued (status : Z) : Outcome bool :=
  if wstatus status =? WSTOPPED then
    s <- stop_signal status ;; Ret (s =? SIGCONT)
  else Ret false.
Definition stopped (status : Z) : Outcome bool :=
  if wstatus status =? WSTOPPED then
    s <- stop_signal status ;; Ret (negb (s =? SIGCONT))
  else Ret false.
Definition exited (status : Z) : bool := wstatus status =? 0.
Definition signaled (status : Z) : bool :=
  negb (wstatus status =? WSTOPPED) && negb (wstatus status =? 0).
Definition term_signal (status : Z) : Outcome Signal :=
  unwrap (from_c_int (wstatus status)).
Definition dumped_core (status : Z) : bool :=
  negb (Z.land status WCOREFLAG =? 0).
Definition decode_stopped (pid : Pid) (status : Z) : Outcome WaitStatus :=
  s <- stop_signal status ;; Ret (Stopped pid s).
End Darwin.

Module Bsd.
Definition WCOREFLAG : Z := 0x80.
Definition WSTOPPED : Z := 0x7f.
Definition wstatus (status : Z) : Z := Z.land status 0x7F.
Definition stopped (status : Z) : bool := wstatus status =? WSTOPPED.
Definition stop_signal (status : Z) : Outcome Signal :=
  unwrap (from_c_int (Z.shiftr status 8)).
Definition signaled (status : Z) : bool :=
  negb (wstatus status =? WSTOPPED) && negb (wstatus status =? 0)
  && negb (status =? 0x13).
Definition term_signal (status : Z) : Outcome Signal :=
  unwrap (from_c_int (wstatus status)).
Definition exited (status : Z) : bool := wstatus status =? 0.
Definition exit_status (status : Z) : Z := as_i8 (Z.shiftr status 8).
Definition continued (status : Z) : bool := status =? 0x13.
Definition dumped_core (status : Z) : bool :=
  negb (Z.land status WCOREFLAG =? 0).
Definition decode_stopped (pid : Pid) (status : Z) : Outcome WaitStatus :=
  s <- stop_signal status ;; Ret (Stopped pid s).
End Bsd.

(** The interface every [mod status] provides to [decode]; the platform is
    chosen at build time, modelled by the instance [decode] is used at. *)
Record StatusDecoder : Type := {
  sd_exited : Z -> Outcome bool;
  sd_exit_status : Z -> Outcome Z;
  sd_signaled : Z -> Outcome bool;
  sd_term_signal : Z -> Outcome Signal;
  sd_dumped_core : Z -> Outcome bool;
  sd_stopped : Z -> Outcome bool;
  sd_continued : Z -> Outcome bool;
  sd_decode_stopped : Pid -> Z -> Outcome WaitStatus
}.

Definition linux : StatusDecoder := {|
  sd_exited s := Ret (Linux.exited s);
  sd_exit_status s := Ret (Linux.exit_status s);
  sd_signaled s := Ret (Linux.signaled s);
  sd_term_signal := Linux.term_signal;
  sd_dumped_core s := Ret (Linux.dumped_core s);
  sd_stopped s := Ret (Linux.stopped s);
  sd_continued s := Ret (Linux.continued s);
  sd_decode_stopped := Linux.decode_stopped
|}.

Definition darwin : StatusDecoder := {|
  sd_exited s := Ret (Darwin.exited s);
  sd_exit_status s := Ret (Darwin.exit_status s);
  sd_signaled s := Ret (Darwin.signaled s);
  sd_term_signal := Darwin.term_signal;
  sd_dumped_core s := Ret (Darwin.dumped_core s);
  sd_stopped := Darwin.stopped;
  sd_continued := Darwin.continued;
  sd_decode_stopped := Darwin.decode_stopped
|}.

Definition bsd : StatusDecoder := {|
  sd_exited s := Ret (Bsd.exited s);
  sd_exit_status s := Ret (Bsd.exit_status s);
  sd_signaled s := Ret (Bsd.signaled s);
  sd_term_signal := Bsd.term_signal;
  sd_dumped_core s := Ret (Bsd.dumped_core s);
  sd_stopped s := Ret (Bsd.stopped s);
  sd_continued s := Ret (Bsd.continued s);
  sd_decode_stopped := Bsd.decode_stopped
|}.

(** [fn decode(pid, status) -> WaitStatus]: the predicates in the order
    exited, signaled, stopped, then [assert!(status::continued(status))]. *)
Definition decode (D : StatusDecoder) (pid : Pid) (status : Z)
  : Outcome WaitStatus :=
  e <- sd_exited D status ;;
  if e then
    c <- sd_exit_status D status ;; Ret (Exited pid c)
  else
    sg <- sd_signaled D status ;;
    if sg then
      t <- sd_term_signal D status ;;
      d <- sd_dumped_core D status ;;
      Ret (Signaled pid t d)
    else
      st <- sd_stopped D status ;;
      if st then sd_decode_stopped D pid status
      else
        ct <- sd_continued D status ;;
        if ct then Ret (Continued pid) else Panicked AssertionFailed.

(** ** [PidGroup] and its conversions *)

(** The payloads are [u32]. *)
Inductive PidGroup : Type :=
| ProcessID (pid : Z)
| ProcessGroupID (pid : Z)
| AnyGroupChild
| AnyChild.

(** [impl From<i32> for PidGroup].  The negation [-pid] is an [i32]
    negation: it wraps at [i32::MIN] (a build with overflow checks panics
    there instead). *)
Definition pidgroup_from_i32 (pid : Z) : PidGroup :=
  if pid >? 0 then ProcessID (as_u32 pid)
  else if pid <? -1 then ProcessGroupID (as_u32 (as_i32 (- pid)))
  else if pid =? 0 then AnyGroupChild
  else AnyChild.

(** [impl Into<i32> for PidGroup]. *)
Definition pidgroup_into (g : PidGroup) : Z :=
  match g with
  | ProcessID pid => as_i32 pid
  | ProcessGroupID pid => as_i32 (- as_i32 pid)
  | AnyGroupChild => 0
  | AnyChild => -1
  end.

(** ** [waitpid] *)

(** Modelled from the spec: [Errno::result], the crate's translation of a
    raw return value (not part of the sources here): the sentinel [-1]
    becomes [Err(Sys(errno))], any other value is passed on. *)
Definition errno_result (res errno : Z) : result Z Error :=
  if res =? -1 then Err (Sys errno) else Ok res.

(** [waitpid(pid, options)].  [prim] is [libc::waitpid]: given the target
    and the option bits it returns its result, the status word it stored
    and the [errno] it left. *)
Definition waitpid (D : StatusDecoder) (prim : Z -> Z -> Z * Z * Z)
    (pid : PidGroup) (options : option Z) : Outcome (result WaitStatus Error) :=
  let options := match options with Some o => o | None => 0 end in
  let '(res, status, errno) := prim (pidgroup_into pid) options in
  match errno_result res errno with
  | Err e => Ret (Err e)
  | Ok res =>
      if res =? 0 then Ret (Ok StillAlive)
      else w <- decode D res status ;; Ret (Ok w)
  end.

(** ** Platforms *)

(** The platform family [mod status] and [decode_stopped] are compiled
    for. *)
Inductive Platform : Type :=
| LinuxAndroid
| DarwinFamily
| OtherBsd.

Definition status_decoder (p : Platform) : StatusDecoder :=
  match p with
  | LinuxAndroid => linux
  | DarwinFamily => darwin
  | OtherBsd => bsd
  end.

(** The status words each platform's bit layout describes.  Linux/Android:
    low 7 bits not all ones (exit code or terminating signal, with the core
    flag in bit 7), low byte [0x7F] (stop signal in bits 8-15, trace event
    in bits 16 and up), or exactly [0xFFFF] (continued).  Darwin: on the
    stop discriminant the bits from 8 up hold a signal.  The other BSDs:
    every word. *)
Definition in_layout (p : Platform) (status : Z) : bool :=
  match p with
  | LinuxAndroid =>
      negb (Z.land status 0x7f =? 0x7f) || (Z.land status 0xff =? 0x7f)
      || (status =? 0xFFFF)
  | DarwinFamily =>
      negb (Darwin.wstatus status =? Darwin.WSTOPPED)
      || match from_c_int (Z.shiftr status 8) with Ok _ => true | Err _ => false end
  | OtherBsd => true
  end.

Definition holds (o : Outcome bool) : bool :=
  match o with Ret true => true | _ => false end.

(** At most one of four predicates returns [true]. *)
Definition at_most_one4 (a b c d : Outcome bool) : bool :=
  Nat.leb (length (filter holds [a; b; c; d])) 1.

(** All four predicates return (no panic) and exactly one returns [true]. *)
Definition exactly_one4 (a b c d : Outcome bool) : bool :=
  match a, b, c, d with
  | Ret x, Ret y, Ret z, Ret w =>
      Nat.eqb (length (filter (fun b : bool => b) [x; y; z; w])) 1
  | _, _, _, _ => false
  end.

(** The four classification predicates of a decoder on one word. *)
Definition classification (D : StatusDecoder) (status : Z) : bool * bool :=
  (at_most_one4 (sd_exited D status) (sd_signaled D status)
     (sd_stopped D status) (sd_continued D status),
   exactly_one4 (sd_exited D status) (sd_signaled D status)
     (sd_stopped D status) (sd_continued D status)).

(** The variant [decode] returned agrees with the predicate that holds. *)
Definition agrees (D : StatusDecoder) (status : Z) (w : WaitStatus) : Prop :=
  match w with
  | Exited _ _ => sd_exited D status = Ret true
  | Signaled _ _ _ => sd_signaled D status = Ret true
  | Stopped _ _ | PtraceEvent _ _ _ => sd_stopped D status = Ret true
  | Continued _ => sd_continued D status = Ret true
  | StillAlive => False
  end.

(** ** Auxiliary definitions *)

(** The outcome is not a failed assertion. *)
Definition no_assert {A} (o : Outcome A) : Prop :=
  match o with Panicked AssertionFailed => False | _ => True end.

Definition is_err {A E} (r : result A E) : bool :=
  match r with Err _ => true | Ok _ => false end.

(** The [PidGroup] values the conversion to [i32] and back preserves:
    every identifier an [i32] can carry, off the [0]/[-1] boundary.  A
    group id of [2^31] is negated to [i32::MIN] and back. *)
Definition pidgroup_round_trips (g : PidGroup) : Prop :=
  match g with
  | ProcessID p => 1 <= p <= i32_max
  | ProcessGroupID p => 2 <= p <= i32_max + 1
  | AnyGroupChild | AnyChild => True
  end.

(** The payloads of a [PidGroup] are [u32] values. *)
Definition pidgroup_payload_u32 (g : PidGroup) : Prop :=
  match g with
  | ProcessID p | ProcessGroupID p => in_u32 p
  | AnyGroupChild | AnyChild => True
  end.

(** The primitive reporting child 5 killed by signal number 100, a number
    outside the signal table. *)
Definition prim_killed_by_100 (target options : Z) : Z * Z * Z := (5, 100, 0).

(** [fn wait()]: [waitpid(PidGroup::AnyChild, None)]. *)
Definition wait (D : StatusDecoder) (prim : Z -> Z -> Z * Z * Z)
  : Outcome (result WaitStatus Error) :=
  waitpid D prim AnyChild None.

(** The process a decoded status is about. *)
Definition waitstatus_pid (w : WaitStatus) : option Pid :=
  match w with
  | Exited pid _ | Signaled pid _ _ | Stopped pid _ | PtraceEvent pid _ _
  | Continued pid => Some pid
  | StillAlive => None
  end.

Ltac dstep :=
  cbn [bind unwrap sd_exited sd_exit_status sd_signaled sd_term_signal sd_dumped_core
       sd_stopped sd_continued sd_decode_stopped status_decoder linux darwin bsd].

Ltac dstep_in H :=
  cbn [bind unwrap sd_exited sd_exit_status sd_signaled sd_term_signal sd_dumped_core
       sd_stopped sd_continued sd_decode_stopped status_decoder linux darwin bsd] in H.

(** Split a hypothesis about a closed form of [decode] into its branches. *)
Ltac dec_in H :=
  cbv zeta in H;
  repeat (match type of H with
          | context [if ?c then _ else _] => destruct c eqn:?
          | context [unwrap ?r] => destruct (unwrap r) eqn:?
          end; dstep_in H).

(** Decide the integer comparisons left in a goal, dropping impossible
    branches. *)
Ltac zbool :=
  repeat (match goal with
          | |- context [?a =? ?b] => destruct (Z.eqb_spec a b); try lia
          | |- context [?a <=? ?b] => destruct (Z.leb_spec a b); try lia
          end; dstep).

(** ** Sanity checks of the embedding on concrete words *)

Example decode_linux_exit42 : decode linux 7 (42 * 256) = Ret (Exited 7 42).
Proof. reflexivity. Qed.
Example decode_linux_sigkill : decode linux 7 9 = Ret (Signaled 7 9 false).
Proof. reflexivity. Qed.
Example decode_linux_sigstop : decode linux 7 (19 * 256 + 0x7f) = Ret (Stopped 7 19).
Proof. reflexivity. Qed.
Example decode_linux_ptrace :
  decode linux 7 (3 * 65536 + 5 * 256 + 0x7f) = Ret (PtraceEvent 7 5 3).
Proof. reflexivity. Qed.
Example decode_linux_cont : decode linux 7 0xFFFF = Ret (Continued 7).
Proof. reflexivity. Qed.
Example decode_linux_ff : decode linux 7 0xFF = Panicked AssertionFailed.
Proof. reflexivity. Qed.
Example decode_darwin_cont : decode darwin 7 (19 * 256 + 0x7f) = Ret (Continued 7).
Proof. reflexivity. Qed.
Example decode_bsd_cont : decode bsd 7 0x13 = Ret (Continued 7).
Proof. reflexivity. Qed.
Example decode_exit255 : decode bsd 7 (255 * 256) = Ret (Exited 7 (-1)).
Proof. reflexivity. Qed.
Example pidgroup_min :
  pidgroup_into (pidgroup_from_i32 i32_min) = i32_min.
Proof. reflexivity. Qed.

(** ** Lemmas on the bit fields *)

Lemma range_check (P : Z -> bool) (lo : Z) (n : nat) :
  forallb P (map (fun k => lo + Z.of_nat k) (seq 0 n)) = true ->
  forall x, lo <= x < lo + Z.of_nat n -> P x = true.
Proof.
  intros H x Hx. rewrite forallb_forall in H. apply H.
  apply in_map_iff. exists (Z.to_nat (x - lo)). split.
  - rewrite Z2Nat.id; lia.
  - apply in_seq. lia.
Qed.

Lemma land_7f (s : Z) : Z.land s 0x7f = s mod 128.
Proof. change 0x7f with (Z.ones 7). now rewrite Z.land_ones. Qed.

Lemma land_ff (s : Z) : Z.land s 0xff = s mod 256.
Proof. change 0xff with (Z.ones 8). now rewrite Z.land_ones. Qed.

Lemma mod128_of_mod256 (s : Z) : s mod 128 = (s mod 256) mod 128.
Proof. rewrite Z.mod_mod_divide; [reflexivity | exists 2; reflexivity]. Qed.

Lemma byte1_linux (s : Z) : Z.shiftr (Z.land s 0xFF00) 8 = (s / 256) mod 256.
Proof.
  rewrite Z.shiftr_land. change (Z.shiftr 0xFF00 8) with (Z.ones 8).
  rewrite Z.land_ones, Z.shiftr_div_pow2 by lia. reflexivity.
Qed.

Lemma byte1_darwin (s : Z) : Z.land (Z.shiftr s 8) 0xFF = (s / 256) mod 256.
Proof.
  change 0xFF with (Z.ones 8).
  rewrite Z.land_ones, Z.shiftr_div_pow2 by lia. reflexivity.
Qed.

Lemma shiftr_8 (s : Z) : Z.shiftr s 8 = s / 256.
Proof. rewrite Z.shiftr_div_pow2 by lia. reflexivity. Qed.

Lemma as_i8_mod (x : Z) : as_i8 (x mod 256) = as_i8 x.
Proof. unfold as_i8. now rewrite Z.mod_mod by lia. Qed.

(** The Linux [signaled] predicate as a condition on the low 7 bits. *)
Lemma linux_signaled_low7 (s : Z) :
  Linux.signaled s = (1 <=? s mod 128) && (s mod 128 <=? 126).
Proof.
  unfold Linux.signaled. rewrite land_7f.
  pose (P := fun x => Bool.eqb (Z.shiftr (as_i8 (x + 1)) 1 >? 0)
                                ((1 <=? x) && (x <=? 126))).
  assert (HP : P (s mod 128) = true).
  { apply (range_check P 0 128); [vm_compute; reflexivity |].
    pose proof (Z.mod_pos_bound s 128). lia. }
  unfold P in HP. apply Bool.eqb_prop in HP. exact HP.
Qed.

(** ** [decode] over any decoder *)

Section Decode.
Variable D : StatusDecoder.

(** [decode_stopped] returns a stop variant, and besides [decode]'s own
    [assert!] nothing a decoder computes fails an assertion. *)
Hypothesis stopped_shape : forall pid s w,
  sd_decode_stopped D pid s = Ret w ->
  match w with Stopped _ _ | PtraceEvent _ _ _ => True | _ => False end.
Hypothesis stopped_no_assert : forall pid s, no_assert (sd_decode_stopped D pid s).
Hypothesis exit_status_no_assert : forall s, no_assert (sd_exit_status D s).
Hypothesis term_signal_no_assert : forall s, no_assert (sd_term_signal D s).
Hypothesis dumped_core_no_assert : forall s, no_assert (sd_dumped_core D s).

Lemma no_assert_bind {A B} (m : Outcome A) (k : A -> Outcome B) :
  no_assert m -> (forall a, no_assert (k a)) -> no_assert (bind m k).
Proof. destruct m as [a|[]]; cbn; auto. Qed.

Lemma decode_agrees (pid : Pid) (s : Z) (w : WaitStatus) :
  decode D pid s = Ret w -> agrees D s w.
Proof.
  unfold decode.
  destruct (sd_exited D s) as [[|]|] eqn:He; cbn; intro H; try discriminate.
  - destruct (sd_exit_status D s); cbn in H; inversion H; subst; exact He.
  - destruct (sd_signaled D s) as [[|]|] eqn:Hs; cbn in H; try discriminate.
    + destruct (sd_term_signal D s); cbn in H; try discriminate.
      destruct (sd_dumped_core D s); cbn in H; inversion H; subst; exact Hs.
    + destruct (sd_stopped D s) as [[|]|] eqn:Ht; cbn in H; try discriminate.
      * pose proof (stopped_shape _ _ _ H).
        destruct w; try contradiction; exact Ht.
      * destruct (sd_continued D s) as [[|]|] eqn:Hc; cbn in H;
          inversion H; subst; exact Hc.
Qed.

Lemma decode_no_assert (pid : Pid) (s : Z) :
  exactly_one4 (sd_exited D s) (sd_signaled D s)
    (sd_stopped D s) (sd_continued D s) = true ->
  no_assert (decode D pid s).
Proof.
  unfold exactly_one4, decode.
  destruct (sd_exited D s) as [e|]; [|discriminate].
  destruct (sd_signaled D s) as [sg|]; [|discriminate].
  destruct (sd_stopped D s) as [st|]; [|discriminate].
  destruct (sd_continued D s) as [ct|]; [|discriminate].
  intro H; cbn.
  destruct e.
  - apply no_assert_bind; cbn; auto.
  - destruct sg.
    + apply no_assert_bind; auto. intros. apply no_assert_bind; cbn; auto.
    + destruct st; auto. destruct ct; cbn; auto. cbn in H; discriminate.
Qed.
End Decode.

Lemma unwrap_no_assert {A E} (r : result A E) : no_assert (unwrap r).
Proof. destruct r; exact I. Qed.

Ltac stop_case :=
  intros pid s w;
  unfold Linux.decode_stopped, Darwin.decode_stopped, Bsd.decode_stopped;
  cbv zeta;
  destruct (Linux.stop_signal s), (Darwin.stop_signal s), (Bsd.stop_signal s);
  try destruct (Linux.stop_additional s =? 0);
  unfold bind; intro H; inversion H; subst; exact I.

Ltac stop_no_assert :=
  intros pid s;
  unfold Linux.decode_stopped, Darwin.decode_stopped, Bsd.decode_stopped;
  cbv zeta;
  try destruct (Linux.stop_additional s =? 0);
  (apply no_assert_bind; [apply unwrap_no_assert | intros; exact I]).

Lemma platform_hyps (p : Platform) :
  (forall pid s w, sd_decode_stopped (status_decoder p) pid s = Ret w ->
     match w with Stopped _ _ | PtraceEvent _ _ _ => True | _ => False end) /\
  (forall pid s, no_assert (sd_decode_stopped (status_decoder p) pid s)) /\
  (forall s, no_assert (sd_exit_status (status_decoder p) s)) /\
  (forall s, no_assert (sd_term_signal (status_decoder p) s)) /\
  (forall s, no_assert (sd_dumped_core (status_decoder p) s)).
Proof.
  destruct p; cbn -[Linux.decode_stopped Darwin.decode_stopped Bsd.decode_stopped
                     Linux.term_signal Darwin.term_signal Bsd.term_signal];
    (split; [stop_case | split; [stop_no_assert | ]]);
    repeat split; intros; try exact I; apply unwrap_no_assert.
Qed.

(** ** The classification predicates per platform *)

(** Linux/Android, away from [0xFFFF]: the predicates read the low byte [b]
    only; all 256 values of [b] checked. *)
Lemma linux_byte_table (b : Z) : 0 <= b < 256 ->
  at_most_one4 (Ret (b mod 128 =? 0))
    (Ret ((1 <=? b mod 128) && (b mod 128 <=? 126))) (Ret (b =? 127)) (Ret false)
  && implb (negb (b mod 128 =? 127) || (b =? 127) || false)
       (exactly_one4 (Ret (b mod 128 =? 0))
          (Ret ((1 <=? b mod 128) && (b mod 128 <=? 126)))
          (Ret (b =? 127)) (Ret false)) = true.
Proof.
  intro Hb.
  apply (range_check (fun b =>
    at_most_one4 (Ret (b mod 128 =? 0))
      (Ret ((1 <=? b mod 128) && (b mod 128 <=? 126))) (Ret (b =? 127)) (Ret false)
    && implb (negb (b mod 128 =? 127) || (b =? 127) || false)
         (exactly_one4 (Ret (b mod 128 =? 0))
            (Ret ((1 <=? b mod 128) && (b mod 128 <=? 126)))
            (Ret (b =? 127)) (Ret false))) 0 256);
    [vm_compute; reflexivity | lia].
Qed.

Lemma linux_classification (s : Z) :
  fst (classification linux s) = true /\
  (in_layout LinuxAndroid s = true -> snd (classification linux s) = true).
Proof.
  destruct (Z.eqb_spec s 0xFFFF) as [->|Hs].
  - split; reflexivity.
  - unfold classification, in_layout;
      cbn [sd_exited sd_signaled sd_stopped sd_continued linux fst snd].
    unfold Linux.exited, Linux.stopped, Linux.continued.
    rewrite linux_signaled_low7, land_7f, land_ff, mod128_of_mod256.
    rewrite (proj2 (Z.eqb_neq _ _) Hs).
    pose proof (linux_byte_table (s mod 256) (Z.mod_pos_bound s 256 ltac:(lia)))
      as T.
    apply andb_prop in T as [T1 T2]. split; [exact T1 |].
    intro L. rewrite L in T2. exact T2.
Qed.

Lemma darwin_classification (s : Z) :
  fst (classification darwin s) = true /\
  (in_layout DarwinFamily s = true -> snd (classification darwin s) = true).
Proof.
  unfold classification, in_layout;
    cbn [sd_exited sd_signaled sd_stopped sd_continued darwin fst snd].
  unfold Darwin.exited, Darwin.signaled, Darwin.stopped, Darwin.continued.
  destruct (Z.eqb_spec (Darwin.wstatus s) Darwin.WSTOPPED) as [Hw|Hw].
  - rewrite Hw. unfold Darwin.stop_signal.
    destruct (from_c_int (Z.shiftr s 8)) as [n|e]; cbn.
    + destruct (n =? SIGCONT); split; reflexivity.
    + split; [reflexivity | discriminate].
  - destruct (Darwin.wstatus s =? 0); cbn; split; reflexivity.
Qed.

Lemma bsd_classification (s : Z) :
  fst (classification bsd s) = true /\
  (in_layout OtherBsd s = true -> snd (classification bsd s) = true).
Proof.
  destruct (Z.eqb_spec s 0x13) as [->|Hs].
  - split; reflexivity.
  - unfold classification;
      cbn [sd_exited sd_signaled sd_stopped sd_continued bsd fst snd].
    unfold Bsd.exited, Bsd.signaled, Bsd.stopped, Bsd.continued.
    rewrite (proj2 (Z.eqb_neq _ _) Hs).
    destruct (Z.eqb_spec (Bsd.wstatus s) Bsd.WSTOPPED) as [Hw|Hw].
    + rewrite Hw. cbn. split; reflexivity.
    + destruct (Bsd.wstatus s =? 0); cbn; split; reflexivity.
Qed.

Lemma platform_classification (p : Platform) (s : Z) :
  fst (classification (status_decoder p) s) = true /\
  (in_layout p s = true -> snd (classification (status_decoder p) s) = true).
Proof.
  destruct p; [apply linux_classification | apply darwin_classification
              | apply bsd_classification].
Qed.

(** A Linux/Android word outside the layout: low byte [0xFF] but not
    [0xFFFF].  No predicate holds and [decode] fails its assertion. *)
Lemma linux_word_outside_layout :
  in_layout LinuxAndroid 0xFF = false /\
  decode linux 7 0xFF = Panicked AssertionFailed.
Proof. split; reflexivity. Qed.

(** ** Claims *)

(** C1: on every platform the predicates exited, signaled, stopped and
    continued are pairwise exclusive on every status word; on every word the
    platform's bit layout describes, all four return and exactly one holds,
    so [decode] never fails its assertion there and the variant it returns
    (a trace event counting as a stop) is the one of the predicate that
    holds. *)
Theorem status_classification_exactly_one (p : Platform) (status : Z) :
  at_most_one4 (sd_exited (status_decoder p) status)
    (sd_signaled (status_decoder p) status) (sd_stopped (status_decoder p) status)
    (sd_continued (status_decoder p) status) = true /\
  (in_layout p status = true ->
   exactly_one4 (sd_exited (status_decoder p) status)
     (sd_signaled (status_decoder p) status) (sd_stopped (status_decoder p) status)
     (sd_continued (status_decoder p) status) = true /\
   forall pid,
     no_assert (decode (status_decoder p) pid status) /\
     forall w, decode (status_decoder p) pid status = Ret w ->
       agrees (status_decoder p) status w).
Proof.
  destruct (platform_classification p status) as [Hamo Hone].
  destruct (platform_hyps p) as (Hshape & Hst & Hex & Hterm & Hcore).
  split; [exact Hamo |].
  intro L. specialize (Hone L). split; [exact Hone |].
  intro pid. split.
  - apply decode_no_assert; assumption.
  - intro w. apply decode_agrees. exact Hshape.
Qed.

Lemma status_classification_exactly_one_witness :
  in_layout DarwinFamily (19 * 256 + 0x7f) = true /\
  exactly_one4 (sd_exited darwin (19 * 256 + 0x7f))
    (sd_signaled darwin (19 * 256 + 0x7f)) (sd_stopped darwin (19 * 256 + 0x7f))
    (sd_continued darwin (19 * 256 + 0x7f)) = true.
Proof.
  split; [reflexivity |].
  exact (proj1 (proj2 (status_classification_exactly_one DarwinFamily
                          (19 * 256 + 0x7f)) eq_refl)).
Defined.

(** C2: on Linux/Android the predicate
    [((((status & 0x7f) + 1) as i8) >> 1) > 0] holds exactly when the low 7
    bits of the status are between 1 and 126. *)
Theorem linux_signaled_iff (status : Z) :
  Linux.signaled status = true <-> 1 <= Z.land status 0x7f <= 126.
Proof.
  rewrite linux_signaled_low7, land_7f, andb_true_iff, !Z.leb_le.
  reflexivity.
Qed.

(** C3: [decode], on any platform's decoder, tries exited, then signaled,
    then stopped, then continued, and the first that holds decides the
    variant; when none of the four holds it fails its [assert!] instead of
    returning a variant. *)
Theorem decode_order_and_assertion (D : StatusDecoder) (pid status : Z) :
  (sd_exited D status = Ret true ->
   decode D pid status = (c <- sd_exit_status D status ;; Ret (Exited pid c))) /\
  (sd_exited D status = Ret false -> sd_signaled D status = Ret true ->
   decode D pid status =
     (t <- sd_term_signal D status ;; d <- sd_dumped_core D status ;;
      Ret (Signaled pid t d))) /\
  (sd_exited D status = Ret false -> sd_signaled D status = Ret false ->
   sd_stopped D status = Ret true ->
   decode D pid status = sd_decode_stopped D pid status) /\
  (sd_exited D status = Ret false -> sd_signaled D status = Ret false ->
   sd_stopped D status = Ret false -> sd_continued D status = Ret true ->
   decode D pid status = Ret (Continued pid)) /\
  (sd_exited D status = Ret false -> sd_signaled D status = Ret false ->
   sd_stopped D status = Ret false -> sd_continued D status = Ret false ->
   decode D pid status = Panicked AssertionFailed).
Proof.
  unfold decode.
  repeat split; intros;
    repeat match goal with H : _ = Ret _ |- _ => rewrite H; clear H end;
    reflexivity.
Qed.

Lemma decode_order_and_assertion_witness :
  decode linux 7 0xFF = Panicked AssertionFailed.
Proof.
  exact (proj2 (proj2 (proj2 (proj2 (decode_order_and_assertion linux 7 0xFF))))
           eq_refl eq_refl eq_refl eq_refl).
Defined.

Lemma linux_signaled_not_exited (s : Z) :
  Linux.signaled s = true -> Linux.exited s = false.
Proof.
  rewrite linux_signaled_low7. unfold Linux.exited. rewrite land_7f.
  intro H. apply andb_prop in H as [H _]. apply Z.leb_le in H.
  apply Z.eqb_neq. lia.
Qed.

Lemma linux_stopped_facts (s : Z) :
  Linux.stopped s = true -> Linux.exited s = false /\ Linux.signaled s = false.
Proof.
  unfold Linux.stopped, Linux.exited. rewrite linux_signaled_low7, land_7f, land_ff.
  intro H. apply Z.eqb_eq in H. rewrite mod128_of_mod256, H. split; reflexivity.
Qed.

Lemma darwin_stop_facts (s : Z) :
  Darwin.wstatus s = Darwin.WSTOPPED ->
  Darwin.exited s = false /\ Darwin.signaled s = false.
Proof.
  unfold Darwin.exited, Darwin.signaled. intros ->. split; reflexivity.
Qed.

Lemma bsd_stop_facts (s : Z) :
  Bsd.stopped s = true -> Bsd.exited s = false /\ Bsd.signaled s = false.
Proof.
  unfold Bsd.stopped, Bsd.exited, Bsd.signaled. intro H. apply Z.eqb_eq in H.
  rewrite H. split; reflexivity.
Qed.

(** C4 (as the code has it): [decode] returns a [WaitStatus], not a
    [Result].  When the signal number read from the status word is not in
    the signal table, [term_signal] or [stop_signal] calls [unwrap] on the
    resolver's error and the decoding panics, and so does [waitpid]: for a
    signaled word and for a stopped or trace-event word on Linux/Android and
    the other BSDs, and on Darwin for a signaled word and for every word with
    the stop discriminant (its stopped and continued predicates read the
    stop signal).  Building [Continued] reads no signal on Linux/Android and
    the other BSDs, and does not fail there. *)
Theorem decode_unrecognized_signal_panics (pid status : Z) :
  (Linux.signaled status = true -> is_err (from_c_int (Z.land status 0x7f)) = true ->
   decode linux pid status = Panicked UnwrapOnErr) /\
  (Linux.stopped status = true ->
   is_err (from_c_int (Z.shiftr (Z.land status 0xFF00) 8)) = true ->
   decode linux pid status = Panicked UnwrapOnErr) /\
  (Linux.continued status = true -> decode linux pid status = Ret (Continued pid)) /\
  (Darwin.signaled status = true -> is_err (from_c_int (Darwin.wstatus status)) = true ->
   decode darwin pid status = Panicked UnwrapOnErr) /\
  (Darwin.wstatus status = Darwin.WSTOPPED ->
   is_err (from_c_int (Z.shiftr status 8)) = true ->
   decode darwin pid status = Panicked UnwrapOnErr) /\
  (Bsd.signaled status = true -> is_err (from_c_int (Bsd.wstatus status)) = true ->
   decode bsd pid status = Panicked UnwrapOnErr) /\
  (Bsd.stopped status = true -> is_err (from_c_int (Z.shiftr status 8)) = true ->
   decode bsd pid status = Panicked UnwrapOnErr) /\
  (Bsd.continued status = true -> decode bsd pid status = Ret (Continued pid)) /\
  (forall D prim g options errno p,
     prim (pidgroup_into g) (match options with Some o => o | None => 0 end)
       = (pid, status, errno) ->
     pid <> -1 -> pid <> 0 -> decode D pid status = Panicked p ->
     waitpid D prim g options = Panicked p).
Proof.
  repeat split.
  - intros Hs He. unfold decode. dstep.
    rewrite (linux_signaled_not_exited _ Hs), Hs. dstep.
    unfold Linux.term_signal. destruct (from_c_int _); [discriminate | reflexivity].
  - intros Hs He. unfold decode. dstep.
    destruct (linux_stopped_facts _ Hs) as [-> ->]. rewrite Hs. dstep.
    unfold Linux.decode_stopped, Linux.stop_signal.
    destruct (from_c_int _); [discriminate |].
    cbv zeta. destruct (Linux.stop_additional status =? 0); reflexivity.
  - unfold Linux.continued. intro H. apply Z.eqb_eq in H. subst. reflexivity.
  - intros Hs He. unfold decode. dstep.
    assert (Darwin.exited status = false) as ->.
    { unfold Darwin.signaled in Hs. unfold Darwin.exited.
      apply andb_prop in Hs as [_ Hs]. apply negb_true_iff in Hs. exact Hs. }
    rewrite Hs. dstep. unfold Darwin.term_signal.
    destruct (from_c_int _); [discriminate | reflexivity].
  - intros Hw He. unfold decode. dstep.
    destruct (darwin_stop_facts _ Hw) as [-> ->]. dstep.
    unfold Darwin.stopped, Darwin.stop_signal. rewrite Hw, Z.eqb_refl.
    destruct (from_c_int _); [discriminate | reflexivity].
  - intros Hs He. unfold decode. dstep.
    assert (Bsd.exited status = false) as ->.
    { unfold Bsd.signaled in Hs. unfold Bsd.exited.
      apply andb_prop in Hs as [Hs _]. apply andb_prop in Hs as [_ Hs].
      apply negb_true_iff in Hs. exact Hs. }
    rewrite Hs. dstep. unfold Bsd.term_signal.
    destruct (from_c_int _); [discriminate | reflexivity].
  - intros Hs He. unfold decode. dstep.
    destruct (bsd_stop_facts _ Hs) as [-> ->]. rewrite Hs. dstep.
    unfold Bsd.decode_stopped, Bsd.stop_signal.
    destruct (from_c_int _); [discriminate | reflexivity].
  - unfold Bsd.continued. intro H. apply Z.eqb_eq in H. subst. reflexivity.
  - intros D prim g options errno p Hprim Hm1 H0 Hdec.
    unfold waitpid. rewrite Hprim. unfold errno_result.
    rewrite (proj2 (Z.eqb_neq _ _) Hm1), (proj2 (Z.eqb_neq _ _) H0), Hdec.
    reflexivity.
Qed.

Lemma decode_unrecognized_signal_panics_witness :
  decode linux 7 100 = Panicked UnwrapOnErr.
Proof.
  exact (proj1 (decode_unrecognized_signal_panics 7 100) eq_refl eq_refl).
Defined.

(** C4, counterexample: the unrecognized signal is not returned to the
    caller as an error value; [waitpid] panics. *)
Lemma unrecognized_signal_not_an_error :
  waitpid linux prim_killed_by_100 AnyChild None = Panicked UnwrapOnErr /\
  forall e, waitpid linux prim_killed_by_100 AnyChild None <> Ret (Err e).
Proof. split; [reflexivity | intros e H; discriminate H]. Qed.

(** C5: on Darwin, stopped and continued both require the stop
    discriminant [0x7F] in the low 7 bits; on that discriminant [decode]
    returns [Continued pid] when the number in bits 8 and up is [SIGCONT],
    and [Stopped pid sig] when it is a signal [sig] other than [SIGCONT];
    [decode] never returns [Stopped] with [SIGCONT]. *)
Theorem darwin_continued_vs_stopped (pid status : Z) :
  (forall pid', decode darwin pid status <> Ret (Stopped pid' SIGCONT)) /\
  (Darwin.stopped status = Ret true \/ Darwin.continued status = Ret true ->
   Z.land status 0x7F = 0x7F) /\
  (Z.land status 0x7F = 0x7F ->
   (Z.shiftr status 8 = SIGCONT -> decode darwin pid status = Ret (Continued pid)) /\
   (forall sig, from_c_int (Z.shiftr status 8) = Ok sig -> sig <> SIGCONT ->
      decode darwin pid status = Ret (Stopped pid sig))).
Proof.
  split; [| split].
  - intros pid'. unfold decode. dstep.
    unfold Darwin.decode_stopped, Darwin.stopped, Darwin.continued.
    destruct (Darwin.exited status); dstep; [discriminate |].
    destruct (Darwin.signaled status); dstep.
    + destruct (Darwin.term_signal status); dstep; discriminate.
    + destruct (Darwin.wstatus status =? Darwin.WSTOPPED); dstep; [| discriminate].
      destruct (Darwin.stop_signal status) as [sg|]; dstep; [| discriminate].
      destruct (sg =? SIGCONT) eqn:E; dstep; [discriminate |].
      intro H. injection H as _ H. subst. rewrite Z.eqb_refl in E. discriminate.
  - unfold Darwin.stopped, Darwin.continued, Darwin.wstatus.
    destruct (Z.eqb_spec (Z.land status 0x7F) Darwin.WSTOPPED) as [Hw|Hw];
      [intros _; exact Hw |].
    intros [H|H]; discriminate H.
  - intro Hw.
    assert (Hw' : Darwin.wstatus status = Darwin.WSTOPPED) by exact Hw.
    destruct (darwin_stop_facts _ Hw') as [He Hs].
    unfold decode. dstep. rewrite He, Hs. dstep.
    unfold Darwin.decode_stopped, Darwin.stopped, Darwin.continued, Darwin.stop_signal.
    rewrite Hw', Z.eqb_refl. split.
    + intros ->. reflexivity.
    + intros sig Hsig Hne. rewrite Hsig. dstep.
      rewrite (proj2 (Z.eqb_neq _ _) Hne). reflexivity.
Qed.

Lemma darwin_continued_vs_stopped_witness :
  decode darwin 7 (19 * 256 + 0x7f) = Ret (Continued 7) /\
  decode darwin 7 (17 * 256 + 0x7f) = Ret (Stopped 7 17).
Proof.
  split.
  - exact (proj1 (proj2 (proj2 (darwin_continued_vs_stopped 7 (19 * 256 + 0x7f)))
                   eq_refl) eq_refl).
  - refine (proj2 (proj2 (proj2 (darwin_continued_vs_stopped 7 (17 * 256 + 0x7f)))
                   eq_refl) 17 eq_refl _).
    discriminate.
Defined.

(** C6: on the other BSDs, continued holds exactly on the word [0x13], and
    signaled holds exactly when the low 7 bits are neither 0 nor [0x7F] and
    the word is not [0x13]. *)
Theorem bsd_continued_signaled (status : Z) :
  (Bsd.continued status = true <-> status = 0x13) /\
  (Bsd.signaled status = true <->
   Z.land status 0x7F <> 0 /\ Z.land status 0x7F <> 0x7F /\ status <> 0x13).
Proof.
  unfold Bsd.continued, Bsd.signaled, Bsd.wstatus, Bsd.WSTOPPED.
  rewrite Z.eqb_eq, !andb_true_iff, !negb_true_iff, !Z.eqb_neq. tauto.
Qed.

(** C7: on Linux/Android a word whose low byte is [0x7F] is classified as
    stopped (neither exited nor signaled); the stop signal is read from bits
    8-15 and the auxiliary value from bits 16 and up; with a recognized stop
    signal [sig], [decode] returns [Stopped pid sig] when the auxiliary value
    is zero and [PtraceEvent pid sig aux] carrying it otherwise. *)
Theorem linux_stopped_decode (pid status : Z) (H : Z.land status 0xff = 0x7f) :
  Linux.stopped status = true /\ Linux.exited status = false /\
  Linux.signaled status = false /\
  Linux.stop_signal status = unwrap (from_c_int ((status / 256) mod 256)) /\
  Linux.stop_additional status = status / 65536 /\
  (forall sig, from_c_int ((status / 256) mod 256) = Ok sig ->
   decode linux pid status =
     if status / 65536 =? 0 then Ret (Stopped pid sig)
     else Ret (PtraceEvent pid sig (status / 65536))).
Proof.
  assert (Hst : Linux.stopped status = true) by (unfold Linux.stopped; now rewrite H).
  destruct (linux_stopped_facts _ Hst) as [He Hs].
  assert (Hsig : Linux.stop_signal status = unwrap (from_c_int ((status / 256) mod 256)))
    by (unfold Linux.stop_signal; now rewrite byte1_linux).
  assert (Hadd : Linux.stop_additional status = status / 65536)
    by (unfold Linux.stop_additional; now rewrite Z.shiftr_div_pow2 by lia).
  repeat split; try assumption.
  intros sig Hok. unfold decode. dstep. rewrite He, Hs, Hst. dstep.
  unfold Linux.decode_stopped. cbv zeta. rewrite Hsig, Hadd, Hok. dstep.
  destruct (status / 65536 =? 0); reflexivity.
Qed.

Lemma linux_stopped_decode_witness :
  decode linux 7 (19 * 256 + 0x7f) = Ret (Stopped 7 19) /\
  decode linux 7 (3 * 65536 + 19 * 256 + 0x7f) = Ret (PtraceEvent 7 19 3).
Proof.
  split.
  - exact (proj2 (proj2 (proj2 (proj2 (proj2
             (linux_stopped_decode 7 (19 * 256 + 0x7f) eq_refl))))) 19 eq_refl).
  - exact (proj2 (proj2 (proj2 (proj2 (proj2
             (linux_stopped_decode 7 (3 * 65536 + 19 * 256 + 0x7f) eq_refl))))) 19 eq_refl).
Defined.

Lemma as_i8_small (c : Z) : 0 <= c < 256 ->
  as_i8 c = if c <? 128 then c else c - 256.
Proof. intro Hc. unfold as_i8. now rewrite Z.mod_small. Qed.

(** C8: on Linux/Android a word whose low 7 bits are zero is classified as
    exited and [decode] returns [Exited pid code], [code] the byte in bits
    8-15 (as the [i8] the variant holds); with 42 in bits 8-15 the code is
    42. *)
Theorem linux_exited_decode (pid status : Z) (H : Z.land status 0x7F = 0) :
  Linux.exited status = true /\
  decode linux pid status = Ret (Exited pid (as_i8 ((status / 256) mod 256))) /\
  ((status / 256) mod 256 = 42 -> decode linux pid status = Ret (Exited pid 42)).
Proof.
  assert (He : Linux.exited status = true) by (unfold Linux.exited; now rewrite H).
  assert (Hd : decode linux pid status = Ret (Exited pid (as_i8 ((status / 256) mod 256)))).
  { unfold decode. dstep. rewrite He. dstep.
    unfold Linux.exit_status. now rewrite byte1_linux. }
  repeat split; try assumption.
  intro H42. rewrite Hd, H42. reflexivity.
Qed.

Lemma linux_exited_decode_witness :
  decode linux 7 (42 * 256) = Ret (Exited 7 42).
Proof. exact (proj2 (proj2 (linux_exited_decode 7 (42 * 256) eq_refl)) eq_refl). Defined.

(** C10: on every platform, a word with zero low 7 bits and an exit code
    [c] between 128 and 255 in bits 8-15 decodes to [Exited pid (c - 256)]:
    the byte read as a two's-complement [i8], a negative number. *)
Theorem exit_code_as_i8 (p : Platform) (pid status c : Z)
    (Hc : 128 <= c <= 255) (H0 : Z.land status 0x7F = 0)
    (Hb : (status / 256) mod 256 = c) :
  decode (status_decoder p) pid status = Ret (Exited pid (c - 256)) /\ c - 256 < 0.
Proof.
  split; [| lia].
  assert (Hi : as_i8 c = c - 256).
  { rewrite as_i8_small by lia. destruct (Z.ltb_spec c 128); lia. }
  destruct p; unfold decode; dstep.
  - unfold Linux.exited. rewrite H0. dstep.
    unfold Linux.exit_status. now rewrite byte1_linux, Hb, Hi.
  - unfold Darwin.exited, Darwin.wstatus. rewrite H0. dstep.
    unfold Darwin.exit_status. now rewrite byte1_darwin, Hb, Hi.
  - unfold Bsd.exited, Bsd.wstatus. rewrite H0. dstep.
    unfold Bsd.exit_status. now rewrite shiftr_8, <- as_i8_mod, Hb, Hi.
Qed.

Lemma exit_code_as_i8_witness :
  decode (status_decoder OtherBsd) 7 (255 * 256) = Ret (Exited 7 (-1)).
Proof.
  refine (proj1 (exit_code_as_i8 OtherBsd 7 (255 * 256) 255 _ eq_refl eq_refl)).
  lia.
Defined.

Lemma as_i32_id (x : Z) : in_i32 x -> as_i32 x = x.
Proof.
  unfold in_i32, i32_min, i32_max, as_i32. intro Hx.
  destruct (Z.leb_spec 0 x).
  - rewrite Z.mod_small by lia. destruct (Z.ltb_spec x 2147483648); lia.
  - replace (x mod 4294967296) with (x + 4294967296)
      by (apply (Z.mod_unique_pos x 4294967296 (-1)); lia).
    destruct (Z.ltb_spec (x + 4294967296) 2147483648); lia.
Qed.

Lemma as_u32_id (x : Z) : in_u32 x -> as_u32 x = x.
Proof. unfold in_u32, as_u32. intro. now rewrite Z.mod_small. Qed.

Lemma as_i32_hi (x : Z) : 2147483648 <= x < 4294967296 -> as_i32 x = x - 4294967296.
Proof.
  unfold as_i32. intro Hx. rewrite Z.mod_small by lia.
  destruct (Z.ltb_spec x 2147483648); lia.
Qed.

(** Close a leaf [g' = g <-> range] of the [PidGroup] round trip. *)
Ltac pg_leaf :=
  split;
  [ let E := fresh in intro E;
    first [discriminate E | injection E; intros; lia | lia]
  | intro; first [reflexivity | f_equal; lia | exfalso; lia] ].

(** C9: converting any [i32] to a [PidGroup] and back gives it back
    (positive to [ProcessID] of itself, below [-1] to [ProcessGroupID] of
    its negation, [0] to [AnyGroupChild], [-1] to [AnyChild]).  Converting
    a variant with a [u32] payload to [i32] and back gives it back exactly
    for the identifiers an [i32] carries off the reserved [0]/[-1]
    boundary: [ProcessID p] with [1 <= p <= i32::MAX], [ProcessGroupID p]
    with [2 <= p <= 2^31], [AnyGroupChild] and [AnyChild].  At the
    boundary [ProcessID 0] and [ProcessGroupID 0] come back as
    [AnyGroupChild] and [ProcessGroupID 1] as [AnyChild]. *)
Theorem pidgroup_conversions :
  (forall z, in_i32 z -> pidgroup_into (pidgroup_from_i32 z) = z) /\
  (forall g, pidgroup_payload_u32 g ->
     pidgroup_from_i32 (pidgroup_into g) = g <-> pidgroup_round_trips g) /\
  pidgroup_from_i32 (pidgroup_into (ProcessID 0)) = AnyGroupChild /\
  pidgroup_from_i32 (pidgroup_into (ProcessGroupID 0)) = AnyGroupChild /\
  pidgroup_from_i32 (pidgroup_into (ProcessGroupID 1)) = AnyChild.
Proof.
  split; [| split; [| repeat split; reflexivity]].
  - intros z Hz. unfold in_i32, i32_min, i32_max in *.
    destruct (Z.eq_dec z (-2147483648)) as [-> | Hmin]; [reflexivity |].
    unfold pidgroup_from_i32.
    destruct (Z.gtb_spec z 0).
    + cbn [pidgroup_into]. rewrite as_u32_id by (unfold in_u32; lia).
      apply as_i32_id. unfold in_i32, i32_min, i32_max. lia.
    + destruct (Z.ltb_spec z (-1)).
      * cbn [pidgroup_into].
        rewrite (as_i32_id (- z)) by (unfold in_i32, i32_min, i32_max; lia).
        rewrite as_u32_id by (unfold in_u32; lia).
        rewrite (as_i32_id (- z)) by (unfold in_i32, i32_min, i32_max; lia).
        rewrite Z.opp_involutive. apply as_i32_id.
        unfold in_i32, i32_min, i32_max. lia.
      * destruct (Z.eqb_spec z 0) as [-> | Hne]; [reflexivity |].
        assert (z = -1) as -> by lia. reflexivity.
  - intros [p|p| |] Hu; cbn [pidgroup_payload_u32 pidgroup_round_trips] in *;
      unfold in_u32, i32_max in *; [| | split; reflexivity ..];
      cbn [pidgroup_into].
    + destruct (Z.leb_spec p 2147483647).
      * rewrite as_i32_id by (unfold in_i32, i32_min, i32_max; lia).
        unfold pidgroup_from_i32.
        destruct (Z.gtb_spec p 0);
          [rewrite as_u32_id by (unfold in_u32; lia) |
           destruct (Z.ltb_spec p (-1)); [| destruct (Z.eqb_spec p 0)]]; pg_leaf.
      * rewrite as_i32_hi by lia. unfold pidgroup_from_i32.
        destruct (Z.gtb_spec (p - 4294967296) 0);
          [| destruct (Z.ltb_spec (p - 4294967296) (-1));
             [| destruct (Z.eqb_spec (p - 4294967296) 0)]]; pg_leaf.
    + destruct (Z.leb_spec p 2147483647); [| destruct (Z.eq_dec p 2147483648)].
      * rewrite (as_i32_id p), (as_i32_id (- p))
          by (unfold in_i32, i32_min, i32_max; lia).
        unfold pidgroup_from_i32.
        destruct (Z.gtb_spec (- p) 0);
          [| destruct (Z.ltb_spec (- p) (-1));
             [rewrite Z.opp_involutive, (as_i32_id p), as_u32_id
                by (unfold in_i32, in_u32, i32_min, i32_max; lia)
             | destruct (Z.eqb_spec (- p) 0)]]; pg_leaf.
      * subst p. split; intros; [lia | reflexivity].
      * rewrite (as_i32_hi p) by lia.
        rewrite (as_i32_id (- (p - 4294967296)))
          by (unfold in_i32, i32_min, i32_max; lia).
        unfold pidgroup_from_i32.
        destruct (Z.gtb_spec (- (p - 4294967296)) 0); [| lia]. pg_leaf.
Qed.

Lemma pidgroup_conversions_witness :
  pidgroup_into (pidgroup_from_i32 (-2147483648)) = -2147483648 /\
  pidgroup_from_i32 (pidgroup_into (ProcessGroupID 2147483648)) = ProcessGroupID 2147483648 /\
  pidgroup_from_i32 (pidgroup_into (ProcessID 4294967295)) <> ProcessID 4294967295.
Proof.
  split; [| split].
  - refine (proj1 pidgroup_conversions (-2147483648) _).
    unfold in_i32, i32_min, i32_max; lia.
  - refine (proj2 (proj1 (proj2 pidgroup_conversions) (ProcessGroupID 2147483648) _) _);
      cbn; unfold in_u32, i32_max; lia.
  - intro HH.
    assert (Hu : pidgroup_payload_u32 (ProcessID 4294967295))
      by (cbn; unfold in_u32; lia).
    apply (proj1 (proj1 (proj2 pidgroup_conversions) (ProcessID 4294967295) Hu)) in HH.
    cbn in HH. unfold i32_max in HH. lia.
Defined.

(** ** Further properties of the decoders and of [waitpid] *)

(** The core-dump flag is bit 7 of the low byte. *)
Lemma core_bit (s : Z) : negb (Z.land s 0x80 =? 0) = (128 <=? s mod 256).
Proof.
  change 0x80 with (Z.land 0xff 0x80). rewrite Z.land_assoc, land_ff.
  apply Bool.eqb_prop.
  apply (range_check (fun b => Bool.eqb (negb (Z.land b 0x80 =? 0)) (128 <=? b)) 0 256);
    [vm_compute; reflexivity |].
  pose proof (Z.mod_pos_bound s 256). lia.
Qed.

(** [decode] on Linux/Android in closed form, over the low byte [b], the
    byte above it and the bits from 16 up. *)
Lemma decode_linux_eq (pid s : Z) :
  decode linux pid s =
  let b := s mod 256 in
  if b mod 128 =? 0 then Ret (Exited pid (as_i8 ((s / 256) mod 256)))
  else if (1 <=? b mod 128) && (b mod 128 <=? 126) then
    t <- unwrap (from_c_int (b mod 128)) ;; Ret (Signaled pid t (128 <=? b))
  else if b =? 127 then
    sig <- unwrap (from_c_int ((s / 256) mod 256)) ;;
    Ret (if s / 65536 =? 0 then Stopped pid sig
         else PtraceEvent pid sig (s / 65536))
  else if s =? 0xFFFF then Ret (Continued pid)
  else Panicked AssertionFailed.
Proof.
  unfold decode. dstep.
  rewrite linux_signaled_low7.
  unfold Linux.exited, Linux.exit_status, Linux.term_signal, Linux.dumped_core,
    Linux.stopped, Linux.decode_stopped, Linux.stop_signal, Linux.stop_additional,
    Linux.continued.
  rewrite core_bit, byte1_linux, land_7f, land_ff, mod128_of_mod256.
  rewrite Z.shiftr_div_pow2 by lia. change (2 ^ 16) with 65536.
  cbv zeta.
  destruct ((s mod 256) mod 128 =? 0); dstep; [reflexivity |].
  destruct ((1 <=? (s mod 256) mod 128) && ((s mod 256) mod 128 <=? 126)); dstep;
    [reflexivity |].
  destruct (s mod 256 =? 127); dstep.
  - destruct (unwrap (from_c_int ((s / 256) mod 256))); dstep;
      destruct (s / 65536 =? 0); reflexivity.
  - reflexivity.
Qed.

(** [decode] on Darwin in closed form. *)
Lemma decode_darwin_eq (pid s : Z) :
  decode darwin pid s =
  if s mod 128 =? 0 then Ret (Exited pid (as_i8 ((s / 256) mod 256)))
  else if negb (s mod 128 =? 127) then
    t <- unwrap (from_c_int (s mod 128)) ;; Ret (Signaled pid t (128 <=? s mod 256))
  else
    sig <- unwrap (from_c_int (s / 256)) ;;
    Ret (if sig =? SIGCONT then Continued pid else Stopped pid sig).
Proof.
  unfold decode. dstep.
  unfold Darwin.exited, Darwin.exit_status, Darwin.signaled, Darwin.term_signal,
    Darwin.dumped_core, Darwin.stopped, Darwin.continued, Darwin.decode_stopped,
    Darwin.stop_signal, Darwin.WCOREFLAG.
  rewrite core_bit, byte1_darwin, shiftr_8.
  unfold Darwin.wstatus, Darwin.WSTOPPED. rewrite land_7f.
  destruct (s mod 128 =? 0) eqn:E0; dstep; [reflexivity |].
  destruct (s mod 128 =? 127) eqn:E7; dstep.
  - destruct (unwrap (from_c_int (s / 256))) as [sig|]; dstep; [| reflexivity].
    destruct (sig =? SIGCONT); dstep; reflexivity.
  - reflexivity.
Qed.

(** [decode] on the other BSDs in closed form. *)
Lemma decode_bsd_eq (pid s : Z) :
  decode bsd pid s =
  if s mod 128 =? 0 then Ret (Exited pid (as_i8 ((s / 256) mod 256)))
  else if negb (s mod 128 =? 127) && negb (s =? 0x13) then
    t <- unwrap (from_c_int (s mod 128)) ;; Ret (Signaled pid t (128 <=? s mod 256))
  else if s mod 128 =? 127 then
    sig <- unwrap (from_c_int (s / 256)) ;; Ret (Stopped pid sig)
  else if s =? 0x13 then Ret (Continued pid)
  else Panicked AssertionFailed.
Proof.
  unfold decode. dstep.
  unfold Bsd.exited, Bsd.exit_status, Bsd.signaled, Bsd.term_signal,
    Bsd.dumped_core, Bsd.stopped, Bsd.continued, Bsd.decode_stopped,
    Bsd.stop_signal, Bsd.WCOREFLAG.
  rewrite core_bit, shiftr_8, <- as_i8_mod.
  unfold Bsd.wstatus, Bsd.WSTOPPED. rewrite land_7f.
  destruct (s mod 128 =? 0) eqn:E0; dstep; [reflexivity |].
  destruct (s mod 128 =? 127); dstep; [reflexivity |].
  destruct (s =? 0x13); dstep; reflexivity.
Qed.

Lemma unwrap_from_c_int (n t : Z) :
  unwrap (from_c_int n) = Ret t -> t = n /\ 1 <= n <= 31.
Proof.
  unfold from_c_int, NSIG.
  destruct (Z.ltb_spec 0 n), (Z.ltb_spec n 32); cbn; intro E; inversion E; lia.
Qed.

Lemma from_c_int_ok (n : Z) : 1 <= n <= 31 -> from_c_int n = Ok n.
Proof.
  intro Hn. unfold from_c_int, NSIG.
  destruct (Z.ltb_spec 0 n), (Z.ltb_spec n 32); cbn; [reflexivity | lia ..].
Qed.

(** Every status [decode] returns, on every platform, is about the process
    it was given: it never returns [StillAlive]. *)
Theorem decode_carries_pid (p : Platform) (pid s : Z) (w : WaitStatus) :
  decode (status_decoder p) pid s = Ret w -> waitstatus_pid w = Some pid.
Proof.
  intro H. destruct p; cbn [status_decoder] in H;
    [rewrite decode_linux_eq in H | rewrite decode_darwin_eq in H
    | rewrite decode_bsd_eq in H];
    dec_in H; inversion H; reflexivity.
Qed.

Lemma decode_carries_pid_witness :
  waitstatus_pid (Signaled 7 9 false) = Some 7.
Proof. exact (decode_carries_pid LinuxAndroid 7 9 (Signaled 7 9 false) eq_refl). Defined.

(** [PtraceEvent] is a Linux/Android result only: Darwin and the other BSDs
    never return it.  On Linux/Android it is returned only for a word with
    low byte [0x7F]; it carries the stop signal of bits 8-15 and the value
    of the bits from 16 up, which is never zero. *)
Theorem ptrace_event_linux_only (pid s pid' sig aux : Z) :
  decode darwin pid s <> Ret (PtraceEvent pid' sig aux) /\
  decode bsd pid s <> Ret (PtraceEvent pid' sig aux) /\
  (decode linux pid s = Ret (PtraceEvent pid' sig aux) ->
   s mod 256 = 127 /\ sig = (s / 256) mod 256 /\ aux = s / 65536 /\ aux <> 0).
Proof.
  split; [| split].
  - rewrite decode_darwin_eq. intro H. dec_in H; discriminate.
  - rewrite decode_bsd_eq. intro H. dec_in H; discriminate.
  - rewrite decode_linux_eq. intro H. dec_in H; try discriminate.
    injection H as <- <- <-.
    match goal with E : unwrap _ = Ret _ |- _ => apply unwrap_from_c_int in E end.
    repeat match goal with E : (_ =? _) = _ |- _ =>
      first [apply Z.eqb_eq in E | apply Z.eqb_neq in E] end.
    intuition lia.
Qed.

Lemma ptrace_event_linux_only_witness :
  65536 + 19 * 256 + 0x7f = 65536 + 19 * 256 + 0x7f /\ 1 <> 0.
Proof.
  destruct (proj2 (proj2 (ptrace_event_linux_only 7 (65536 + 19 * 256 + 0x7f) 7 19 1))
              eq_refl) as (_ & _ & H & H0).
  split; [reflexivity | exact H0].
Defined.

(** On every platform a [Signaled] result carries the low 7 bits of the
    word as its signal (a number of the signal table) and bit 7 as its
    core-dump flag. *)
Theorem signaled_fields (p : Platform) (pid s pid' sig : Z) (core : bool) :
  decode (status_decoder p) pid s = Ret (Signaled pid' sig core) ->
  pid' = pid /\ sig = s mod 128 /\ 1 <= sig <= 31 /\ core = (128 <=? s mod 256).
Proof.
  intro H. destruct p; cbn [status_decoder] in H;
    [rewrite decode_linux_eq in H | rewrite decode_darwin_eq in H
    | rewrite decode_bsd_eq in H];
    dec_in H; try discriminate; injection H as <- <- <-;
    match goal with E : unwrap _ = Ret _ |- _ => apply unwrap_from_c_int in E end;
    rewrite <- ?mod128_of_mod256 in *; intuition; subst; lia.
Qed.

Lemma signaled_fields_witness : 9 = 9 mod 128 /\ true = (128 <=? 137 mod 256).
Proof.
  destruct (signaled_fields DarwinFamily 7 (128 + 9) 7 9 true eq_refl) as (_ & H1 & _ & H2).
  split; [reflexivity | exact H2].
Defined.

(** A [Stopped] result carries the stop signal as each platform lays it
    out: on Linux/Android the low byte is [0x7F], the signal is bits 8-15 and
    the bits from 16 up are zero; on Darwin and the other BSDs the low 7 bits
    are [0x7F] and the signal is the whole word shifted right by 8, never
    [SIGCONT] on Darwin. *)
Theorem stopped_fields (pid s pid' sig : Z) :
  (decode linux pid s = Ret (Stopped pid' sig) ->
   pid' = pid /\ s mod 256 = 127 /\ sig = (s / 256) mod 256 /\ s / 65536 = 0) /\
  (decode darwin pid s = Ret (Stopped pid' sig) ->
   pid' = pid /\ s mod 128 = 127 /\ sig = s / 256 /\ sig <> SIGCONT) /\
  (decode bsd pid s = Ret (Stopped pid' sig) ->
   pid' = pid /\ s mod 128 = 127 /\ sig = s / 256).
Proof.
  split; [| split]; intro H;
    [rewrite decode_linux_eq in H | rewrite decode_darwin_eq in H
    | rewrite decode_bsd_eq in H];
    dec_in H; try discriminate; injection H as <- <-;
    match goal with E : unwrap _ = Ret _ |- _ => apply unwrap_from_c_int in E end;
    repeat match goal with E : (_ =? _) = _ |- _ =>
      first [apply Z.eqb_eq in E | apply Z.eqb_neq in E] end;
    intuition (unfold SIGCONT in *; lia).
Qed.

Lemma stopped_fields_witness : 17 <> SIGCONT.
Proof.
  destruct (proj1 (proj2 (stopped_fields 7 (17 * 256 + 0x7f) 7 17)) eq_refl)
    as (_ & _ & _ & H).
  exact H.
Defined.

Lemma from_c_int_err (n : Z) : n < 1 \/ 31 < n -> from_c_int n = Err InvalidArgument.
Proof.
  intro Hn. unfold from_c_int, NSIG.
  destruct (Z.ltb_spec 0 n), (Z.ltb_spec n 32); cbn; [lia | reflexivity ..].
Qed.

(** On every platform a word whose low 7 bits are zero is an exit: [decode]
    returns [Exited] with bits 8-15 read as an [i8], whatever bit 7 and the
    bits from 16 up hold. *)
Theorem exit_word_all_platforms (p : Platform) (pid s : Z)
    (H : Z.land s 0x7F = 0) :
  decode (status_decoder p) pid s = Ret (Exited pid (as_i8 ((s / 256) mod 256))).
Proof.
  rewrite land_7f in H.
  destruct p; cbn [status_decoder];
    [rewrite decode_linux_eq; cbv zeta; rewrite <- mod128_of_mod256
    | rewrite decode_darwin_eq | rewrite decode_bsd_eq];
    rewrite H; reflexivity.
Qed.

Lemma exit_word_all_platforms_witness :
  decode darwin 7 (0x30000 + 200 * 256 + 128) = Ret (Exited 7 (-56)).
Proof. exact (exit_word_all_platforms DarwinFamily 7 (0x30000 + 200 * 256 + 128) eq_refl). Defined.

(** A termination word (a signal 1-31 in the low 7 bits, bit 7 the core
    flag) decodes to [Signaled pid sig core] on every platform, except on
    the other BSDs for signal 19 without core flag: that word is the literal
    [0x13], which decodes to [Continued pid]. *)
Theorem termination_word (p : Platform) (pid sig : Z) (core : bool)
    (Hs : 1 <= sig <= 31) :
  decode (status_decoder p) pid (sig + if core then 128 else 0) =
  match p with
  | OtherBsd =>
      if (sig =? 19) && negb core then Ret (Continued pid)
      else Ret (Signaled pid sig core)
  | _ => Ret (Signaled pid sig core)
  end.
Proof.
  set (w := sig + if core then 128 else 0).
  assert (E1 : w mod 256 = w) by (apply Z.mod_small; subst w; destruct core; lia).
  assert (E2 : w mod 128 = sig)
    by (subst w; destruct core; Z.div_mod_to_equations; lia).
  assert (E3 : (128 <=? w) = core)
    by (subst w; destruct core; [apply Z.leb_le | apply Z.leb_gt]; lia).
  destruct p; cbn [status_decoder];
    [rewrite decode_linux_eq; cbv zeta | rewrite decode_darwin_eq | rewrite decode_bsd_eq];
    rewrite ?E1, E2, ?E1, ?E3, from_c_int_ok by lia; zbool; try reflexivity;
    subst w; destruct core; cbn in *; try lia; reflexivity.
Qed.

Lemma termination_word_witness :
  decode bsd 7 19 = Ret (Continued 7) /\
  decode linux 7 (9 + 128) = Ret (Signaled 7 9 true).
Proof.
  split.
  - refine (termination_word OtherBsd 7 19 false _). lia.
  - refine (termination_word LinuxAndroid 7 9 true _). lia.
Defined.

(** The words [decode] reports as continued: exactly [0xFFFF] on
    Linux/Android, the stop discriminant with [SIGCONT] (with or without
    bit 7), [0x137F] and [0x13FF], on Darwin, and exactly [0x13] on the
    other BSDs. *)
Theorem continued_words (pid s : Z) :
  (decode linux pid s = Ret (Continued pid) <-> s = 0xFFFF) /\
  (decode darwin pid s = Ret (Continued pid) <-> s = 0x137F \/ s = 0x13FF) /\
  (decode bsd pid s = Ret (Continued pid) <-> s = 0x13).
Proof.
  split; [| split]; split.
  - rewrite decode_linux_eq. intro H. dec_in H; try discriminate.
    apply Z.eqb_eq. assumption.
  - intros ->. reflexivity.
  - rewrite decode_darwin_eq. intro H. dec_in H; try discriminate.
    match goal with E : unwrap _ = Ret _ |- _ => apply unwrap_from_c_int in E end.
    repeat match goal with E : (_ =? _) = _ |- _ =>
      first [apply Z.eqb_eq in E | apply Z.eqb_neq in E] end.
    cbn in *. unfold SIGCONT in *. Z.div_mod_to_equations. lia.
  - intros [-> | ->]; reflexivity.
  - rewrite decode_bsd_eq. intro H. dec_in H; try discriminate.
    apply Z.eqb_eq. assumption.
  - intros ->. reflexivity.
Qed.

Lemma from_c_int_cases (n : Z) :
  (1 <= n <= 31 /\ from_c_int n = Ok n) \/
  ((n < 1 \/ 31 < n) /\ from_c_int n = Err InvalidArgument).
Proof.
  destruct (Z.leb_spec 1 n), (Z.leb_spec n 31).
  - left. split; [lia | apply from_c_int_ok; lia].
  - right. split; [lia | apply from_c_int_err; lia].
  - right. split; [lia | apply from_c_int_err; lia].
  - lia.
Qed.

(** Split the goal on every signal conversion left in it. *)
Ltac signal_cases :=
  repeat (match goal with
          | |- context [from_c_int ?n] =>
              destruct (from_c_int_cases n) as [[? ->] | [? ->]]
          end; dstep; cbn [negb andb]; zbool).

(** Close a leaf [o = o' <-> P] once the outcome [o] is computed. *)
Ltac iff_leaf :=
  solve [ split; [intro; discriminate | intro; exfalso; Z.div_mod_to_equations; lia]
        | split; [intros _; Z.div_mod_to_equations; lia | intros _; reflexivity] ].

(** A stop word (a signal 1-31 in bits 8-15, [0x7F] in the low 7 bits,
    bit 7 free) decodes to [Stopped pid sig] on the other BSDs, and on
    Darwin too unless the signal is [SIGCONT], which gives [Continued pid].
    On Linux/Android only the word with bit 7 clear is a stop; with bit 7
    set the low byte is [0xFF] and the final [assert!] fails. *)
Theorem stop_word (pid sig : Z) (core : bool) (Hs : 1 <= sig <= 31) :
  decode bsd pid (sig * 256 + 127 + if core then 128 else 0) = Ret (Stopped pid sig) /\
  decode darwin pid (sig * 256 + 127 + if core then 128 else 0) =
    Ret (if sig =? SIGCONT then Continued pid else Stopped pid sig) /\
  decode linux pid (sig * 256 + 127 + if core then 128 else 0) =
    if core then Panicked AssertionFailed else Ret (Stopped pid sig).
Proof.
  set (w := sig * 256 + 127 + if core then 128 else 0).
  assert (E1 : w mod 128 = 127) by (subst w; destruct core; Z.div_mod_to_equations; lia).
  assert (E2 : w / 256 = sig) by (subst w; destruct core; Z.div_mod_to_equations; lia).
  assert (E3 : w mod 256 = if core then 255 else 127)
    by (subst w; destruct core; Z.div_mod_to_equations; lia).
  assert (E4 : w / 65536 = 0) by (subst w; destruct core; Z.div_mod_to_equations; lia).
  split; [| split].
  - rewrite decode_bsd_eq, E1, E2, (from_c_int_ok sig) by lia. dstep. zbool; reflexivity.
  - rewrite decode_darwin_eq, E1, E2, (from_c_int_ok sig) by lia. dstep. zbool; reflexivity.
  - rewrite decode_linux_eq. cbv zeta. rewrite E3.
    destruct core.
    + destruct (Z.eqb_spec w 0xFFFF) as [Hw | _]; [subst w; lia | reflexivity].
    + rewrite E2, E4, (Z.mod_small sig 256), (from_c_int_ok sig) by lia. reflexivity.
Qed.

Lemma stop_word_witness :
  decode darwin 7 (19 * 256 + 127 + 128) = Ret (Continued 7) /\
  decode linux 7 (19 * 256 + 127 + 128) = Panicked AssertionFailed.
Proof.
  destruct (stop_word 7 19 true) as [_ [Hd Hl]]; [lia |].
  split; [exact Hd | exact Hl].
Defined.

(** When [decode] panics.  Through [unwrap], on every platform: a
    termination signal number 32-126 in the low 7 bits (not a signal, as
    [NSIG] is 32), or a stop word whose stop signal is not a signal number
    1-31 (on Darwin and the other BSDs [status >> 8], on Linux/Android bits
    8-15 of a word with low byte [0x7F]).  The final [assert!] never fails
    on Darwin and the other BSDs; on Linux/Android it fails exactly for a
    low byte [0xFF] other than the word [0xFFFF]. *)
Theorem decode_panics (pid s : Z) :
  (decode darwin pid s = Panicked UnwrapOnErr <->
     32 <= s mod 128 <= 126 \/ s mod 128 = 127 /\ ~ (1 <= s / 256 <= 31)) /\
  decode darwin pid s <> Panicked AssertionFailed /\
  (decode bsd pid s = Panicked UnwrapOnErr <->
     32 <= s mod 128 <= 126 \/ s mod 128 = 127 /\ ~ (1 <= s / 256 <= 31)) /\
  decode bsd pid s <> Panicked AssertionFailed /\
  (decode linux pid s = Panicked UnwrapOnErr <->
     32 <= s mod 128 <= 126 \/ s mod 256 = 127 /\ ~ (1 <= (s / 256) mod 256 <= 31)) /\
  (decode linux pid s = Panicked AssertionFailed <->
     s mod 256 = 255 /\ s <> 0xFFFF).
Proof.
  split; [| split; [| split; [| split; [| split]]]].
  - rewrite decode_darwin_eq. zbool; signal_cases; iff_leaf.
  - rewrite decode_darwin_eq. zbool; signal_cases; discriminate.
  - rewrite decode_bsd_eq. zbool; signal_cases; iff_leaf.
  - rewrite decode_bsd_eq. zbool; signal_cases; discriminate.
  - rewrite decode_linux_eq. cbv zeta. rewrite <- !mod128_of_mod256.
    zbool; signal_cases; iff_leaf.
  - rewrite decode_linux_eq. cbv zeta. zbool; signal_cases; iff_leaf.
Qed.

Lemma decode_panics_witness :
  decode linux 7 40 = Panicked UnwrapOnErr /\ decode bsd 7 (40 * 256 + 127) = Panicked UnwrapOnErr.
Proof.
  destruct (decode_panics 7 40) as [_ [_ [_ [_ [Hl _]]]]].
  destruct (decode_panics 7 (40 * 256 + 127)) as [_ [_ [Hb _]]].
  split.
  - apply Hl. left. split; vm_compute; intro HH; discriminate HH.
  - apply Hb. right. split; [reflexivity | vm_compute; intros [_ HH]; apply HH; reflexivity].
Defined.

(** [waitpid] passes the target and option bits to the primitive, and
    then: a result of [-1] is the error [Sys errno]; a result of [0] is
    [StillAlive]; any other result is the pid handed to [decode], whose
    panic [waitpid] propagates.  So an [Ok] status is [StillAlive] for a
    result of [0] or carries the pid the primitive returned, and an error
    is always [Sys errno] for a result of [-1]. *)
Theorem waitpid_outcomes (p : Platform) (prim : Z -> Z -> Z * Z * Z)
    (g : PidGroup) (options : option Z) (res status errno : Z)
    (Hprim : prim (pidgroup_into g) (match options with Some o => o | None => 0 end)
             = (res, status, errno)) :
  let W := waitpid (status_decoder p) prim g options in
  (res = -1 -> W = Ret (Err (Sys errno))) /\
  (res = 0 -> W = Ret (Ok StillAlive)) /\
  (res <> -1 -> res <> 0 -> W = (w <- decode (status_decoder p) res status ;; Ret (Ok w))) /\
  (forall w, W = Ret (Ok w) ->
     (res = 0 /\ w = StillAlive) \/ (res <> -1 /\ res <> 0 /\ waitstatus_pid w = Some res)) /\
  (forall e, W = Ret (Err e) -> res = -1 /\ e = Sys errno) /\
  (forall q, W = Panicked q ->
     res <> -1 /\ res <> 0 /\ decode (status_decoder p) res status = Panicked q).
Proof.
  cbv zeta. unfold waitpid. cbv zeta. rewrite Hprim. unfold errno_result.
  destruct (Z.eqb_spec res (-1)) as [Hm | Hm]; [subst res; cbn |].
  { repeat split; intros; try discriminate; try lia.
    - match goal with E : Ret _ = Ret _ |- _ => injection E; intros; subst end; auto. }
  destruct (Z.eqb_spec res 0) as [Hz | Hz]; [subst res; cbn |].
  { repeat split; intros; try discriminate; try lia.
    match goal with E : Ret _ = Ret _ |- _ => injection E; intros; subst end; auto. }
  repeat split; intros; try lia; try reflexivity;
    match goal with E : (_ <- decode _ _ _ ;; _) = _ |- _ => rename E into H end;
    destruct (decode (status_decoder p) res status) as [w' | q'] eqn:Hd; cbn in H;
    try discriminate; try congruence.
  right. injection H; intros; subst. split; [exact Hm | split; [exact Hz |]].
  destruct p; cbn [status_decoder] in Hd;
    [rewrite decode_linux_eq in Hd | rewrite decode_darwin_eq in Hd
    | rewrite decode_bsd_eq in Hd];
    dec_in Hd; inversion Hd; reflexivity.
Qed.

Lemma waitpid_outcomes_witness :
  waitpid linux (fun _ _ => (-1, 0, 10)) AnyChild None = Ret (Err (Sys 10)).
Proof.
  exact (proj1 (waitpid_outcomes LinuxAndroid (fun _ _ => (-1, 0, 10)) AnyChild None
                  (-1) 0 10 eq_refl) eq_refl).
Defined.

(** [wait] queries the primitive only for any child ([-1]) with no option
    bits ([0]): two primitives that agree there give the same outcome. *)
Theorem wait_any_child (D : StatusDecoder) (prim1 prim2 : Z -> Z -> Z * Z * Z)
    (H : prim1 (-1) 0 = prim2 (-1) 0) :
  wait D prim1 = wait D prim2.
Proof. unfold wait, waitpid. cbn [pidgroup_into]. rewrite H. reflexivity. Qed.

Lemma wait_any_child_witness :
  wait linux (fun a o => if (a =? -1) && (o =? 0) then (0, 0, 0) else (-1, 0, 10)) =
  wait linux (fun _ _ => (0, 0, 0)).
Proof. exact (wait_any_child linux _ (fun _ _ => (0, 0, 0)) eq_refl). Defined.
